(** * terraform-provider-kuzzle: provider configuration and authentication

    A shallow embedding of package [kuzzle] (the [Provider] schema validator,
    [providerConfigure], [checkConnection], [checkToken], [tryAuthenticate])
    and the properties of its credential-resolution policy.

    Go values are modelled as follows.
    - [string] is [String.string]; [int] status codes are [Z].
    - [error] is [option error]: [None] is the nil error.
    - [interface{}] as filled by [encoding/json] is the tagged union [iface].
    - [map[string]interface{}] is an association list with unique keys.
    - a run-time panic (failed type assertion, nil dereference) is the
      [Panic] outcome of the [result] type.
    - every outbound HTTP request is appended to a trace. *)

From Stdlib Require Import String Ascii List ZArith Bool Lia SpecFloat.
Import ListNotations.
Open Scope string_scope.
Set Warnings "-register-all".

(** ** Go values *)

Module Go.

(** [errors.errorString]: an error is its message. *)
Inductive error : Type := errorString (s : string).

Definition Error (e : error) : string := let 'errorString s := e in s.

(** [fmt.Errorf] on a format without verbs. *)
Definition Errorf (msg : string) : error := errorString msg.

(** The dynamic values [encoding/json] stores into an [interface{}]. *)
Inductive iface : Type :=
| Nil
| Bool (b : bool)
| Float64 (x : spec_float)
| Str (s : string)
| Slice (l : list iface)
| Map (m : list (string * iface)).

Definition gomap : Type := list (string * iface).

(** [m[k]]: the zero value [Nil] when the key is absent (or the map is nil). *)
Fixpoint index (m : gomap) (k : string) : iface :=
  match m with
  | [] => Nil
  | (k', v) :: rest => if String.eqb k' k then v else index rest k
  end.

(** [m[k] = v]: the older binding of [k], if any, is replaced. *)
Fixpoint store (m : gomap) (k : string) (v : iface) : gomap :=
  match m with
  | [] => [(k, v)]
  | (k', v') :: rest =>
      if String.eqb k' k then (k, v) :: rest else (k', v') :: store rest k v
  end.

(** The name the run time prints for the dynamic type of a value. *)
Definition typeName (v : iface) : string :=
  match v with
  | Nil => "nil"
  | Bool _ => "bool"
  | Float64 _ => "float64"
  | Str _ => "string"
  | Slice _ => "[]interface {}"
  | Map _ => "map[string]interface {}"
  end.

(** Outcome of a Go computation: a returned value or a run-time panic. *)
Inductive result (A : Type) : Type :=
| Ret (a : A)
| Panic (msg : string).
Arguments Ret {A} a.
Arguments Panic {A} msg.

Definition conversionPanic (v : iface) (target : string) : string :=
  "interface conversion: interface {} is " ++ typeName v ++ ", not " ++ target.

Definition nilDereference : string :=
  "runtime error: invalid memory address or nil pointer dereference".

(** [v.(map[string]interface{})], the single-result type assertion. *)
Definition assertMap (v : iface) : result gomap :=
  match v with
  | Map m => Ret m
  | _ => Panic (conversionPanic v "map[string]interface {}")
  end.

(** [v.(bool)] *)
Definition assertBool (v : iface) : result bool :=
  match v with
  | Bool b => Ret b
  | _ => Panic (conversionPanic v "bool")
  end.

(** [v.(string)] *)
Definition assertString (v : iface) : result string :=
  match v with
  | Str s => Ret s
  | _ => Panic (conversionPanic v "string")
  end.

End Go.
Export Go.

(** ** A reference JSON decoder

    [encoding/json] is not part of the repository: the program is stated over
    an arbitrary decoder (class [World] below).  The decoder of this section
    instantiates it in the examples.  It covers the fragment of JSON made of
    [null], booleans, strings of printable ASCII with the one-letter escapes,
    arrays and objects; a text outside the fragment (numbers, [\u] escapes,
    bytes above 127) is rejected here. *)

Module Json.

Definition dquote : ascii := "034"%char.
Definition backslash : ascii := "092"%char.

Definition isSpace (c : ascii) : bool :=
  Ascii.eqb c " " || Ascii.eqb c "009" || Ascii.eqb c "010" || Ascii.eqb c "013".

Fixpoint skipSpace (s : string) : string :=
  match s with
  | String c r => if isSpace c then skipSpace r else s
  | EmptyString => s
  end.

(** [stripPrefix p s] is the rest of [s] after the literal [p]. *)
Fixpoint stripPrefix (p s : string) : option string :=
  match p, s with
  | EmptyString, _ => Some s
  | String a p', String b s' => if Ascii.eqb a b then stripPrefix p' s' else None
  | String _ _, EmptyString => None
  end.

Definition unescape (c : ascii) : option ascii :=
  if Ascii.eqb c dquote then Some dquote
  else if Ascii.eqb c backslash then Some backslash
  else if Ascii.eqb c "/" then Some "/"%char
  else if Ascii.eqb c "b" then Some "008"%char
  else if Ascii.eqb c "f" then Some "012"%char
  else if Ascii.eqb c "n" then Some "010"%char
  else if Ascii.eqb c "r" then Some "013"%char
  else if Ascii.eqb c "t" then Some "009"%char
  else None.

Definition plainChar (c : ascii) : bool :=
  let n := nat_of_ascii c in (32 <=? n)%nat && (n <? 128)%nat.

(** The characters of a string literal, read after its opening quote. *)
Fixpoint scanString (s : string) : option (string * string) :=
  match s with
  | EmptyString => None
  | String c r =>
      if Ascii.eqb c dquote then Some (EmptyString, r)
      else if Ascii.eqb c backslash then
        match r with
        | String e r' =>
            match unescape e, scanString r' with
            | Some x, Some (t, rest) => Some (String x t, rest)
            | _, _ => None
            end
        | EmptyString => None
        end
      else if plainChar c then
        match scanString r with
        | Some (t, rest) => Some (String c t, rest)
        | None => None
        end
      else None
  end.

Section Composite.
(** The value parser one nesting level down. *)
Variable value : string -> option (iface * string).

(** Members of an object, read after [{] or after a comma. *)
Fixpoint members (fuel : nat) (s : string) (acc : gomap)
  : option (gomap * string) :=
  match fuel with
  | O => None
  | S fuel' =>
      match skipSpace s with
      | String c r =>
          if Ascii.eqb c dquote then
            match scanString r with
            | Some (k, r1) =>
                match skipSpace r1 with
                | String c1 r2 =>
                    if Ascii.eqb c1 ":" then
                      match value r2 with
                      | Some (v, r3) =>
                          match skipSpace r3 with
                          | String c3 r4 =>
                              if Ascii.eqb c3 "," then
                                members fuel' r4 (store acc k v)
                              else if Ascii.eqb c3 "}" then
                                Some (store acc k v, r4)
                              else None
                          | EmptyString => None
                          end
                      | None => None
                      end
                    else None
                | EmptyString => None
                end
            | None => None
            end
          else None
      | EmptyString => None
      end
  end.

(** Elements of an array, read after [[] or after a comma. *)
Fixpoint elements (fuel : nat) (s : string) (acc : list iface)
  : option (list iface * string) :=
  match fuel with
  | O => None
  | S fuel' =>
      match value s with
      | Some (v, r1) =>
          match skipSpace r1 with
          | String c r2 =>
              if Ascii.eqb c "," then elements fuel' r2 (acc ++ [v])%list
              else if Ascii.eqb c "]" then Some ((acc ++ [v])%list, r2)
              else None
          | EmptyString => None
          end
      | None => None
      end
  end.
End Composite.

Definition closes (c : ascii) (s : string) : option string :=
  match skipSpace s with
  | String d r => if Ascii.eqb c d then Some r else None
  | EmptyString => None
  end.

Fixpoint value (fuel : nat) (s : string) : option (iface * string) :=
  match fuel with
  | O => None
  | S fuel' =>
      match skipSpace s with
      | EmptyString => None
      | String c r =>
          if Ascii.eqb c "{" then
            match closes "}" r with
            | Some r' => Some (Map [], r')
            | None =>
                match members (value fuel') fuel' r [] with
                | Some (m, r') => Some (Map m, r')
                | None => None
                end
            end
          else if Ascii.eqb c "[" then
            match closes "]" r with
            | Some r' => Some (Slice [], r')
            | None =>
                match elements (value fuel') fuel' r [] with
                | Some (l, r') => Some (Slice l, r')
                | None => None
                end
            end
          else if Ascii.eqb c dquote then
            match scanString r with
            | Some (t, r') => Some (Str t, r')
            | None => None
            end
          else if Ascii.eqb c "t" then
            match stripPrefix "rue" r with
            | Some r' => Some (Bool true, r')
            | None => None
            end
          else if Ascii.eqb c "f" then
            match stripPrefix "alse" r with
            | Some r' => Some (Bool false, r')
            | None => None
            end
          else if Ascii.eqb c "n" then
            match stripPrefix "ull" r with
            | Some r' => Some (Nil, r')
            | None => None
            end
          else None
      end
  end.

(** The name [encoding/json] gives the kind of a decoded value. *)
Definition kindName (v : iface) : string :=
  match v with
  | Nil => "null"
  | Bool _ => "bool"
  | Float64 _ => "number"
  | Str _ => "string"
  | Slice _ => "array"
  | Map _ => "object"
  end.

(** A whole text: one value, then only white space. *)
Definition decode (s : string) : option iface :=
  match value (S (String.length s)) s with
  | Some (v, r) =>
      match skipSpace r with
      | EmptyString => Some v
      | String _ _ => None
      end
  | None => None
  end.

(** [json.Unmarshal(body, &jsonBody)] for [jsonBody] a nil
    [map[string]interface{}]: a syntax error is returned; [null] leaves the
    map nil; an object fills it; any other value is a type error. *)
Definition Unmarshal (body : string) : gomap + error :=
  match decode body with
  | None => inr (Errorf "json: syntax error")
  | Some Nil => inl []
  | Some (Map m) => inl m
  | Some v =>
      inr (Errorf ("json: cannot unmarshal " ++ kindName v
                   ++ " into Go value of type map[string]interface {}"))
  end.

(** Writes a JSON text with apostrophes in place of double quotes. *)
Fixpoint dq (s : string) : string :=
  match s with
  | EmptyString => EmptyString
  | String c r => String (if Ascii.eqb c "'" then dquote else c) (dq r)
  end.

(** [json.Marshal] of a [map[string]string]: the keys in sorted order.  Of the
    escapes Go applies, those of the quote and the backslash are modelled. *)
Fixpoint escape (s : string) : string :=
  match s with
  | EmptyString => EmptyString
  | String c r =>
      if Ascii.eqb c dquote || Ascii.eqb c backslash
      then String backslash (String c (escape r))
      else String c (escape r)
  end.

Definition quote (s : string) : string :=
  String dquote (escape s ++ String dquote EmptyString).

Fixpoint insertKey (kv : string * string) (l : list (string * string))
  : list (string * string) :=
  match l with
  | [] => [kv]
  | kv' :: rest =>
      if String.leb (fst kv) (fst kv') then kv :: l else kv' :: insertKey kv rest
  end.

Definition sortKeys (m : list (string * string)) : list (string * string) :=
  fold_right insertKey [] m.

Fixpoint fields (l : list (string * string)) : string :=
  match l with
  | [] => EmptyString
  | [(k, v)] => quote k ++ ":" ++ quote v
  | (k, v) :: rest => quote k ++ ":" ++ quote v ++ "," ++ fields rest
  end.

Definition Marshal (m : list (string * string)) : string :=
  "{" ++ fields (sortKeys m) ++ "}".

End Json.

(** ** The front end of [net/url]

    [url.Parse] is not part of the repository either; the validator is stated
    over an arbitrary parser.  [Url.Parse] models the first stages of the
    library function (fragment cut, control-byte screen, scheme split); the
    later stages, which can only reject more inputs, are left out. *)

Module Url.

(** [url.URL], with the one field the validator reads. *)
Record URL : Type := { Scheme : string }.

Definition isCTL (c : ascii) : bool :=
  let n := nat_of_ascii c in (n <? 32)%nat || (n =? 127)%nat.

Fixpoint stringContainsCTLByte (s : string) : bool :=
  match s with
  | EmptyString => false
  | String c r => isCTL c || stringContainsCTLByte r
  end.

Definition isLetter (c : ascii) : bool :=
  let n := nat_of_ascii c in
  ((97 <=? n) && (n <=? 122) || (65 <=? n) && (n <=? 90))%nat.

Definition isSchemeSymbol (c : ascii) : bool :=
  let n := nat_of_ascii c in
  ((48 <=? n) && (n <=? 57))%nat
  || Ascii.eqb c "+" || Ascii.eqb c "-" || Ascii.eqb c ".".

Inductive schemeScan : Type :=
| NoScheme
| MissingScheme
| Split (scheme rest : string).

Definition extend (c : ascii) (r : schemeScan) : schemeScan :=
  match r with
  | Split scheme rest => Split (String c scheme) rest
  | other => other
  end.

(** The loop of [getScheme]; [first] tells whether the index is 0. *)
Fixpoint scanScheme (first : bool) (s : string) : schemeScan :=
  match s with
  | EmptyString => NoScheme
  | String c r =>
      if isLetter c then extend c (scanScheme false r)
      else if isSchemeSymbol c then
        if first then NoScheme else extend c (scanScheme false r)
      else if Ascii.eqb c ":" then
        if first then MissingScheme else Split EmptyString r
      else NoScheme
  end.

Definition getScheme (rawURL : string) : (string * string) + error :=
  match scanScheme true rawURL with
  | NoScheme => inl (EmptyString, rawURL)
  | MissingScheme => inr (Errorf "missing protocol scheme")
  | Split scheme rest => inl (scheme, rest)
  end.

Definition toLowerChar (c : ascii) : ascii :=
  let n := nat_of_ascii c in
  if ((65 <=? n) && (n <=? 90))%nat then ascii_of_nat (n + 32) else c.

Fixpoint ToLower (s : string) : string :=
  match s with
  | EmptyString => EmptyString
  | String c r => String (toLowerChar c) (ToLower r)
  end.

(** [strings.Cut(rawURL, "#")], first component. *)
Fixpoint beforeFragment (s : string) : string :=
  match s with
  | EmptyString => EmptyString
  | String c r => if Ascii.eqb c "#" then EmptyString else String c (beforeFragment r)
  end.

(** [&url.Error{"parse", u, err}] *)
Definition parseError (u : string) (err : error) : error :=
  Errorf ("parse " ++ Json.quote u ++ ": " ++ Error err).

Definition Parse (rawURL : string) : option URL * option error :=
  let u := beforeFragment rawURL in
  if stringContainsCTLByte u then
    (None, Some (parseError u (Errorf "net/url: invalid control character in URL")))
  else if String.eqb u "*" then (Some {| Scheme := EmptyString |}, None)
  else
    match getScheme u with
    | inr err => (None, Some (parseError u err))
    | inl (scheme, _) => (Some {| Scheme := ToLower scheme |}, None)
    end.

End Url.
Export Url.

(** ** The outside world *)

(** [http.Response], with the fields the program reads; [Body] is what
    [ioutil.ReadAll(resp.Body)] yields. *)
Record Response : Type := { StatusCode : Z; Body : string }.

(** The requests [http.Client] is asked to send. *)
Inductive Request : Type :=
| GET (url : string)
| POST (url contentType body : string).

(** What lies outside the repository: the HTTP transport (a response, or the
    error of a request that could not be sent), [encoding/json] and
    [net/url].  The three requests of a configuration pass differ in method
    or URL, so a function of the request loses no behaviour. *)
Class World : Type := {
  Do : Request -> Response + error;
  json_Marshal : list (string * string) -> string;
  json_Unmarshal : string -> gomap + error;
  url_Parse : string -> option URL * option error
}.

Definition StatusBadGateway : Z := 502.
Definition StatusServiceUnavailable : Z := 503.

(** ** Computations: a trace of requests, and panics *)

Definition trace : Type := list Request.

Definition M (A : Type) : Type := trace -> result A * trace.

Definition ret {A : Type} (a : A) : M A := fun t => (Ret a, t).

Definition bind {A B : Type} (m : M A) (f : A -> M B) : M B :=
  fun t =>
    match m t with
    | (Ret a, t') => f a t'
    | (Panic msg, t') => (Panic msg, t')
    end.

Definition lift {A : Type} (r : result A) : M A := fun t => (r, t).

Definition send `{World} (r : Request) : M (Response + error) :=
  fun t => (Ret (Do r), (t ++ [r])%list).

Definition run {A : Type} (m : M A) : result A * trace := m [].

Declare Scope go_scope.
Delimit Scope go_scope with go.
Notation "x <- m ;; k" := (bind m (fun x => k))
  (at level 100, m at next level, right associativity) : go_scope.
Notation "' p <- m ;; k" := (bind m (fun x => let 'p := x in k))
  (at level 100, p pattern, m at next level, right associativity) : go_scope.
Open Scope go_scope.

(** ** terraform-plugin-sdk: diagnostics and resource data *)

Module diag.

Inductive Severity : Type := Error | Warning.

Record Diagnostic : Type := {
  severity : Severity;
  Summary : string;
  Detail : string
}.

Definition Diagnostics : Type := list Diagnostic.

(** [diag.Errorf(format, a...)]: one Error diagnostic whose summary is the
    formatted text. *)
Definition Errorf (text : string) : Diagnostics :=
  [{| severity := Error; Summary := text; Detail := EmptyString |}].

End diag.

(** [schema.ResourceData] of the provider block: the string attributes. *)
Definition ResourceData : Type := list (string * string).

(** [d.Get(key).(string)]: the zero value when the attribute is unset. *)
Fixpoint Get (d : ResourceData) (key : string) : string :=
  match d with
  | [] => EmptyString
  | (k, v) :: rest => if String.eqb k key then v else Get rest key
  end.

(** ** Package kuzzle *)

Record Config : Type := {
  Endpoint : string;
  Token : string
}.

(** The named results [(config, diags)] of [providerConfigure]. *)
Definition results : Type := (option Config * diag.Diagnostics)%type.

(** Where control is after a block of [providerConfigure]: a bare [return]
    was executed, or control falls through to the next statement. *)
Inductive flow : Type :=
| Returned (r : results)
| Next (r : results).

Definition andThen (m : M flow) (block : results -> M flow) : M flow :=
  f <- m ;;
  match f with
  | Returned r => ret (Returned r)
  | Next r => block r
  end.

Definition named (f : flow) : results :=
  match f with
  | Returned r => r
  | Next r => r
  end.

Definition nonEmpty (s : string) : bool := negb (String.eqb s EmptyString).

(** [%q] of a key without characters to escape. *)
Definition q (k : string) : string := Json.quote k.

Section Kuzzle.
Context `{W : World}.

(** The [ValidateFunc] of the [endpoint] attribute. *)
Definition endpointValidateFunc (v k : string)
  : result (list string * list error) :=
  let ws : list string := [] in
  let errors : list error := [] in
  let errors :=
    if String.eqb v EmptyString
    then (errors ++ [Go.Errorf (q k ++ " must be a non-empty string")])%list
    else errors in
  let '(URL, err) := url_Parse v in
  let errors :=
    match err with
    | Some _ => (errors ++ [Go.Errorf (q k ++ " must be a valid URL")])%list
    | None => errors
    end in
  match URL with
  | None => Panic nilDereference
  | Some u =>
      let errors :=
        if negb (String.eqb (Scheme u) "http")
           && negb (String.eqb (Scheme u) "https")
        then (errors ++ [Go.Errorf
                (q k ++ " must be a valid URL with http or https scheme")])%list
        else errors in
      Ret (ws, errors)
  end.

(** checkConnection tests the connection to the Kuzzle server *)
Definition checkConnection (endpoint : string) : M (option error) :=
  r <- send (GET endpoint) ;;
  match r with
  | inr err => ret (Some err)
  | inl resp =>
      if (StatusCode resp =? StatusBadGateway)%Z
         || (StatusCode resp =? StatusServiceUnavailable)%Z
      then ret (Some (Go.Errorf "Kuzzle server is not reachable"))
      else ret None
  end.

(** checkToken tests the validity of the provided API key *)
Definition checkToken (endpoint token : string) : M (option error) :=
  let reqBody := json_Marshal [("jwt", token)] in
  r <- send (POST (endpoint ++ "/_checkToken") "application/json" reqBody) ;;
  match r with
  | inr err => ret (Some err)
  | inl resp =>
      (* the Post succeeded: [err] is nil, and [return err] returns it *)
      let err : option error := None in
      if negb (StatusCode resp =? 200)%Z then ret err
      else
        match json_Unmarshal (Body resp) with
        | inr err => ret (Some err)
        | inl jsonBody =>
            result <- lift (assertMap (index jsonBody "result")) ;;
            valid <- lift (assertBool (index result "valid")) ;;
            if negb (Bool.eqb valid true)
            then ret (Some (Go.Errorf "Kuzzle API key is invalid"))
            else ret None
        end
  end.

(** tryAuthenticate tries to authenticate with the provided
    username/password using local strategy *)
Definition tryAuthenticate (endpoint username password : string)
  : M (string * option error) :=
  let reqBody :=
    json_Marshal [("username", username); ("password", password)] in
  r <- send (POST (endpoint ++ "/_login/local") "application/json" reqBody) ;;
  match r with
  | inr err => ret (EmptyString, Some err)
  | inl resp =>
      if negb (StatusCode resp =? 200)%Z
      then ret (EmptyString, Some (Go.Errorf "Kuzzle authentication failed"))
      else
        match json_Unmarshal (Body resp) with
        | inr err => ret (EmptyString, Some err)
        | inl jsonBody =>
            result <- lift (assertMap (index jsonBody "result")) ;;
            jwt <- lift (assertString (index result "jwt")) ;;
            ret (jwt, None)
        end
  end.

(** If we have username/password, try to authenticate *)
Definition passwordBlock (endpoint username password : string)
  (r : results) : M flow :=
  let '(config, diags) := r in
  if nonEmpty username && nonEmpty password then
    '(jwt, err) <- tryAuthenticate endpoint username password ;;
    match err with
    | Some e =>
        let diags := (diags ++ [{| diag.severity := diag.Error;
                                   diag.Summary := "Kuzzle authentication failed";
                                   diag.Detail := Error e |}])%list in
        ret (Returned (config, diags))
    | None =>
        ret (Next (Some {| Endpoint := endpoint; Token := jwt |}, diags))
    end
  else ret (Next (config, diags)).

(** If no username/password pair is provided, we try to check the API key
    validity (the comment of the source; the block is entered whenever the
    key is non-empty, whatever the previous block did) *)
Definition apiKeyBlock (endpoint apiKey : string) (r : results) : M flow :=
  let '(config, diags) := r in
  if nonEmpty apiKey then
    err <- checkToken endpoint apiKey ;;
    match err with
    | Some e =>
        let diags := (diags ++ [{| diag.severity := diag.Error;
                                   diag.Summary := "Kuzzle provided API key is invalid";
                                   diag.Detail := Error e |}])%list in
        ret (Returned (config, diags))
    | None =>
        ret (Next (Some {| Endpoint := endpoint; Token := apiKey |}, diags))
    end
  else ret (Next (config, diags)).

(** If no authentication method is provided, we try to use anonymous
    authentication *)
Definition anonymousBlock (endpoint : string) (r : results) : M flow :=
  let '(config, diags) := r in
  match config with
  | None =>
      let diags :=
        (diags ++ [{| diag.severity := diag.Warning;
                      diag.Summary := "Kuzzle authentication credentials not provided";
                      diag.Detail := "No authentication credentials provided. Using anonymous authentication..." |}])%list in
      ret (Next (Some {| Endpoint := endpoint; Token := EmptyString |}, diags))
  | Some _ => ret (Next (config, diags))
  end.

(** The two credential blocks of [providerConfigure] in sequence (source
    lines 88 to 122), from given named results. *)
Definition authBlocks (endpoint apiKey username password : string)
  (r : results) : M flow :=
  andThen (passwordBlock endpoint username password r)
          (apiKeyBlock endpoint apiKey).

(** providerConfigure is called to configure the provider.  It tests the
    connection to the Kuzzle server and tries to authenticate with the
    provided credentials *)
Definition providerConfigure (d : ResourceData) : M results :=
  let endpoint := Get d "endpoint" in
  let apiKey := Get d "api_key" in
  let username := Get d "username" in
  let password := Get d "password" in
  err <- checkConnection endpoint ;;
  match err with
  | Some e =>
      ret (None, diag.Errorf ("Error connecting to Kuzzle: " ++ Error e))
  | None =>
      f <- andThen (authBlocks endpoint apiKey username password (None, []))
                   (anonymousBlock endpoint) ;;
      ret (named f)
  end.

End Kuzzle.

(** What a computation returns, and the requests it sends, from an empty
    trace. *)
Definition outcome {A : Type} (m : M A) : result A := fst (run m).
Definition requests {A : Type} (m : M A) : trace := snd (run m).

(** A computation whose behaviour does not depend on the requests sent
    before it. *)
Definition stateless {A : Type} (m : M A) : Prop :=
  forall t, m t = (outcome m, (t ++ requests m)%list).

(** ** Mocked servers, after the repository's tests *)

Record Mock : Type := {
  method : string;
  url : string;
  statusCode : Z;
  response : string
}.

Definition matches (r : Request) (m : Mock) : bool :=
  match r with
  | GET u => String.eqb (method m) "GET" && String.eqb (url m) u
  | POST u _ _ => String.eqb (method m) "POST" && String.eqb (url m) u
  end.

(** The transport with the mocks installed: a request no mock matches cannot
    be sent. *)
Definition gock (mocks : list Mock) (r : Request) : Response + error :=
  match find (matches r) mocks with
  | Some m => inl {| StatusCode := statusCode m; Body := response m |}
  | None => inr (Go.Errorf "dial tcp: lookup kuzzle: no such host")
  end.

Definition mockWorld (mocks : list Mock) : World :=
  {| Do := gock mocks;
     json_Marshal := Json.Marshal;
     json_Unmarshal := Json.Unmarshal;
     url_Parse := Url.Parse |}.

Definition kuzzle : string := "http://kuzzle:7512".

Definition reachable : Mock :=
  {| method := "GET"; url := kuzzle; statusCode := 200;
     response := Json.dq "{'result': 'ok'}" |}.

Definition badGateway : Mock :=
  {| method := "GET"; url := kuzzle; statusCode := 502;
     response := EmptyString |}.

Definition tokenValid : Mock :=
  {| method := "POST"; url := kuzzle ++ "/_checkToken"; statusCode := 200;
     response := Json.dq "{'result': {'valid': true}}" |}.

Definition tokenInvalid : Mock :=
  {| method := "POST"; url := kuzzle ++ "/_checkToken"; statusCode := 200;
     response := Json.dq "{'result': {'valid': false}}" |}.

Definition tokenNotAuthorized : Mock :=
  {| method := "POST"; url := kuzzle ++ "/_checkToken"; statusCode := 403;
     response := Json.dq "{'result': 'Not Authorized'}" |}.

Definition tokenNoField : Mock :=
  {| method := "POST"; url := kuzzle ++ "/_checkToken"; statusCode := 200;
     response := Json.dq "{'result': {}}" |}.

Definition loginOK : Mock :=
  {| method := "POST"; url := kuzzle ++ "/_login/local"; statusCode := 200;
     response := Json.dq "{'result': {'jwt': 'mySuperAuthenticationToken'}}" |}.

Definition loginUnauthorized : Mock :=
  {| method := "POST"; url := kuzzle ++ "/_login/local"; statusCode := 401;
     response := EmptyString |}.

Definition loginNoField : Mock :=
  {| method := "POST"; url := kuzzle ++ "/_login/local"; statusCode := 200;
     response := Json.dq "{'result': {}}" |}.

Definition settings (apiKey username password : string) : ResourceData :=
  [("endpoint", kuzzle); ("api_key", apiKey);
   ("username", username); ("password", password)].

(** The [wantErr] column of the test tables. *)
Definition wantErr {A : Type} (r : result (option A)) : option bool :=
  match r with
  | Ret (Some _) => Some true
  | Ret None => Some false
  | Panic _ => None
  end.

Definition notJSON : string := "Not a JSON response".

(** ** Vocabulary of the statements *)

(** A 200 reply whose body decodes to an object with [result.valid] true. *)
Definition validTokenReply `{World} (resp : Response) : Prop :=
  StatusCode resp = 200%Z /\
  exists jsonBody result,
    json_Unmarshal (Body resp) = inl jsonBody /\
    index jsonBody "result" = Map result /\
    index result "valid" = Bool true.

(** The request [checkToken] sends. *)
Definition checkTokenRequest `{World} (endpoint token : string) : Request :=
  POST (endpoint ++ "/_checkToken") "application/json"
       (json_Marshal [("jwt", token)]).

(** The request [tryAuthenticate] sends. *)
Definition loginRequest `{World} (endpoint username password : string)
  : Request :=
  POST (endpoint ++ "/_login/local") "application/json"
       (json_Marshal [("username", username); ("password", password)]).

(** The diagnostics [providerConfigure] appends. *)
Definition authenticationFailed (err : error) : diag.Diagnostic :=
  {| diag.severity := diag.Error;
     diag.Summary := "Kuzzle authentication failed";
     diag.Detail := Error err |}.

Definition apiKeyInvalid (err : error) : diag.Diagnostic :=
  {| diag.severity := diag.Error;
     diag.Summary := "Kuzzle provided API key is invalid";
     diag.Detail := Error err |}.

Definition credentialsNotProvided : diag.Diagnostic :=
  {| diag.severity := diag.Warning;
     diag.Summary := "Kuzzle authentication credentials not provided";
     diag.Detail := "No authentication credentials provided. Using anonymous authentication..." |}.

(** The decision table of [providerConfigure] after a successful connection
    check, in terms of what its helpers return. *)
Definition resolve `{World} (endpoint apiKey username password : string)
  : result results * trace :=
  let login := loginRequest endpoint username password in
  let check := checkTokenRequest endpoint apiKey in
  if nonEmpty username && nonEmpty password then
    match outcome (tryAuthenticate endpoint username password) with
    | Panic msg => (Panic msg, [GET endpoint; login])
    | Ret (_, Some err) =>
        (Ret (None, [authenticationFailed err]), [GET endpoint; login])
    | Ret (jwt, None) =>
        if nonEmpty apiKey then
          match outcome (checkToken endpoint apiKey) with
          | Panic msg => (Panic msg, [GET endpoint; login; check])
          | Ret (Some err) =>
              (Ret (Some {| Endpoint := endpoint; Token := jwt |},
                    [apiKeyInvalid err]),
               [GET endpoint; login; check])
          | Ret None =>
              (Ret (Some {| Endpoint := endpoint; Token := apiKey |}, []),
               [GET endpoint; login; check])
          end
        else
          (Ret (Some {| Endpoint := endpoint; Token := jwt |}, []),
           [GET endpoint; login])
    end
  else if nonEmpty apiKey then
    match outcome (checkToken endpoint apiKey) with
    | Panic msg => (Panic msg, [GET endpoint; check])
    | Ret (Some err) => (Ret (None, [apiKeyInvalid err]), [GET endpoint; check])
    | Ret None =>
        (Ret (Some {| Endpoint := endpoint; Token := apiKey |}, []),
         [GET endpoint; check])
    end
  else
    (Ret (Some {| Endpoint := endpoint; Token := EmptyString |},
          [credentialsNotProvided]),
     [GET endpoint]).




(** [providerConfigure] without its username/password block. *)
Definition withoutLogin `{World} (d : ResourceData) : M results :=
  let endpoint := Get d "endpoint" in
  let apiKey := Get d "api_key" in
  err <- checkConnection endpoint ;;
  match err with
  | Some e =>
      ret (None, diag.Errorf ("Error connecting to Kuzzle: " ++ Error e))
  | None =>
      f <- andThen (apiKeyBlock endpoint apiKey (None, []))
                   (anonymousBlock endpoint) ;;
      ret (named f)
  end.

(** A request to the login route of [endpoint]. *)
Definition isLogin (endpoint : string) (r : Request) : Prop :=
  match r with
  | GET _ => False
  | POST u _ _ => u = endpoint ++ "/_login/local"
  end.

(** ** Claims of the specification that the code does not satisfy

    Stated as the specification words them, over a world, so that each can be
    refuted at a concrete one. *)

(** [checkToken] succeeds if and only if the reply is 200 with a valid token,
    and fails on every other status. *)
Definition checkTokenSpec (W : World) : Prop :=
  forall endpoint token,
    (outcome (checkToken endpoint token) = Ret None <->
     exists resp, Do (checkTokenRequest endpoint token) = inl resp /\
                  validTokenReply resp)
    /\ (forall resp, Do (checkTokenRequest endpoint token) = inl resp ->
                     StatusCode resp <> 200%Z ->
                     exists err, outcome (checkToken endpoint token)
                                 = Ret (Some err)).

(** With both credentials accepted by the login and a rejected API key,
    [providerConfigure] reports the key as invalid and returns no Config. *)
Definition apiKeyFailureSpec (W : World) (d : ResourceData) : Prop :=
  let endpoint := Get d "endpoint" in
  let apiKey := Get d "api_key" in
  let username := Get d "username" in
  let password := Get d "password" in
  nonEmpty username = true -> nonEmpty password = true ->
  (exists jwt,
     outcome (tryAuthenticate endpoint username password) = Ret (jwt, None)) ->
  nonEmpty apiKey = true ->
  (exists err, outcome (checkToken endpoint apiKey) = Ret (Some err)) ->
  exists diags,
    outcome (providerConfigure d) = Ret (None, diags) /\
    exists dg, In dg diags /\ diag.severity dg = diag.Error /\
               diag.Summary dg = "Kuzzle provided API key is invalid".


(** ** Properties *)

Section Computations.
Context {A B : Type}.

Lemma stateless_ret (a : A) : stateless (ret a).
Proof. intro t. unfold ret, outcome, requests, run. simpl. now rewrite app_nil_r. Qed.

Lemma stateless_lift (r : result A) : stateless (lift r).
Proof. intro t. unfold lift, outcome, requests, run. simpl. now rewrite app_nil_r. Qed.

Lemma stateless_send `{World} (r : Request) : stateless (send r).
Proof. intro t. reflexivity. Qed.

Lemma stateless_bind (m : M A) (f : A -> M B) :
  stateless m -> (forall a, stateless (f a)) -> stateless (bind m f).
Proof.
  intros Hm Hf t.
  unfold outcome, requests, run, bind.
  rewrite (Hm t), (Hm []).
  destruct (outcome m) as [a | msg]; simpl.
  - rewrite (Hf a (t ++ requests m)%list), (Hf a (requests m)).
    simpl. now rewrite app_assoc.
  - reflexivity.
Qed.

End Computations.

Ltac stateless_tac :=
  repeat first
    [ apply stateless_ret | apply stateless_lift | apply stateless_send
    | apply stateless_bind; [| intro]
    | match goal with
      | |- stateless (match ?x with _ => _ end) => destruct x
      | |- stateless (if ?b then _ else _) => destruct b
      | |- stateless (let '(_, _) := ?p in _) => destruct p
      end ].

Section Helpers.
Context `{W : World}.

Lemma checkConnection_stateless endpoint : stateless (checkConnection endpoint).
Proof. unfold checkConnection. stateless_tac. Qed.

Lemma checkToken_stateless endpoint token : stateless (checkToken endpoint token).
Proof. unfold checkToken. cbv zeta. stateless_tac. Qed.

Lemma tryAuthenticate_stateless endpoint username password :
  stateless (tryAuthenticate endpoint username password).
Proof. unfold tryAuthenticate. cbv zeta. stateless_tac. Qed.

Lemma checkConnection_run endpoint :
  run (checkConnection endpoint) =
  (match Do (GET endpoint) with
   | inr err => Ret (Some err)
   | inl resp =>
       if ((StatusCode resp =? 502) || (StatusCode resp =? 503))%Z
       then Ret (Some (Go.Errorf "Kuzzle server is not reachable"))
       else Ret None
   end, [GET endpoint]).
Proof.
  unfold checkConnection, run, bind, send. simpl.
  destruct (Do (GET endpoint)) as [resp | err]; [| reflexivity].
  unfold StatusBadGateway, StatusServiceUnavailable.
  destruct ((StatusCode resp =? 502) || (StatusCode resp =? 503))%Z; reflexivity.
Qed.

Lemma checkToken_run endpoint token :
  run (checkToken endpoint token) =
  (match Do (checkTokenRequest endpoint token) with
   | inr err => Ret (Some err)
   | inl resp =>
       if negb (StatusCode resp =? 200)%Z then Ret None
       else
         match json_Unmarshal (Body resp) with
         | inr err => Ret (Some err)
         | inl jsonBody =>
             match index jsonBody "result" with
             | Map result =>
                 match index result "valid" with
                 | Bool true => Ret None
                 | Bool false => Ret (Some (Go.Errorf "Kuzzle API key is invalid"))
                 | v => Panic (conversionPanic v "bool")
                 end
             | v => Panic (conversionPanic v "map[string]interface {}")
             end
         end
   end, [checkTokenRequest endpoint token]).
Proof.
  unfold checkToken, checkTokenRequest, run, bind, send, lift, ret. simpl.
  destruct (Do _) as [resp | err]; [| reflexivity].
  destruct (negb (StatusCode resp =? 200)%Z); [reflexivity |].
  destruct (json_Unmarshal (Body resp)) as [jsonBody | err]; [| reflexivity].
  destruct (index jsonBody "result") as [| b | x | s | l | result]; try reflexivity.
  cbn [assertMap].
  destruct (index result "valid") as [| [|] | x | s | l | m]; reflexivity.
Qed.

Lemma tryAuthenticate_run endpoint username password :
  run (tryAuthenticate endpoint username password) =
  (match Do (loginRequest endpoint username password) with
   | inr err => Ret (EmptyString, Some err)
   | inl resp =>
       if negb (StatusCode resp =? 200)%Z
       then Ret (EmptyString, Some (Go.Errorf "Kuzzle authentication failed"))
       else
         match json_Unmarshal (Body resp) with
         | inr err => Ret (EmptyString, Some err)
         | inl jsonBody =>
             match index jsonBody "result" with
             | Map result =>
                 match index result "jwt" with
                 | Str jwt => Ret (jwt, None)
                 | v => Panic (conversionPanic v "string")
                 end
             | v => Panic (conversionPanic v "map[string]interface {}")
             end
         end
   end, [loginRequest endpoint username password]).
Proof.
  unfold tryAuthenticate, loginRequest, run, bind, send, lift, ret. simpl.
  destruct (Do _) as [resp | err]; [| reflexivity].
  destruct (negb (StatusCode resp =? 200)%Z); [reflexivity |].
  destruct (json_Unmarshal (Body resp)) as [jsonBody | err]; [| reflexivity].
  destruct (index jsonBody "result") as [| b | x | s | l | result]; try reflexivity.
  cbn [assertMap].
  destruct (index result "jwt") as [| b | x | s | l | m]; reflexivity.
Qed.

End Helpers.

Section CheckConnection.
Context `{W : World}.

Lemma unhealthy_iff (status : Z) :
  ((status =? 502) || (status =? 503))%Z = true <->
  (status = 502 \/ status = 503)%Z.
Proof. rewrite orb_true_iff, !Z.eqb_eq. reflexivity. Qed.

(** C5: [checkConnection] returns an error exactly when the GET to the
    endpoint cannot be sent or the reply status is 502 or 503; it returns nil
    for every other reply (403 and 404 among them).  It sends that one
    request and cannot panic. *)
Theorem checkConnection_fails_iff (endpoint : string) :
  ((exists err, outcome (checkConnection endpoint) = Ret (Some err)) <->
   ((exists err, Do (GET endpoint) = inr err) \/
    (exists resp, Do (GET endpoint) = inl resp /\
                  (StatusCode resp = 502 \/ StatusCode resp = 503)%Z)))
  /\ (outcome (checkConnection endpoint) = Ret None <->
      exists resp, Do (GET endpoint) = inl resp /\
                   StatusCode resp <> 502%Z /\ StatusCode resp <> 503%Z)
  /\ requests (checkConnection endpoint) = [GET endpoint].
Proof.
  unfold outcome, requests. rewrite checkConnection_run. cbn [fst snd].
  split; [| split; [| reflexivity]].
  - destruct (Do (GET endpoint)) as [resp | err].
    + destruct ((StatusCode resp =? 502) || (StatusCode resp =? 503))%Z
        eqn:Hstatus.
      * split; intros _; [| eexists; reflexivity].
        right. exists resp. split; [reflexivity |].
        now apply unhealthy_iff.
      * split; [intros [err Herr]; discriminate |].
        intros [[err Herr] | [r [Hr Hs]]]; [discriminate |].
        injection Hr as <-. apply unhealthy_iff in Hs. congruence.
    + split; intros _; [left |]; exists err; reflexivity.
  - destruct (Do (GET endpoint)) as [resp | err].
    + destruct ((StatusCode resp =? 502) || (StatusCode resp =? 503))%Z
        eqn:Hstatus.
      * split; [discriminate |].
        intros [r [Hr [H502 H503]]]. injection Hr as <-.
        apply unhealthy_iff in Hstatus. tauto.
      * split; [intros _ | reflexivity].
        exists resp. split; [reflexivity |].
        split; intros Hs;
          assert (Hbad : ((StatusCode resp =? 502) || (StatusCode resp =? 503))%Z
                         = true) by (apply unhealthy_iff; auto);
          congruence.
    + split; [discriminate |]. intros [r [Hr _]]. discriminate.
Qed.

End CheckConnection.

Section CheckToken.
Context `{W : World}.

(** C1 (amended): [checkToken] returns the nil error if and only if the POST
    to [/_checkToken] was answered and either the status is not 200, or the
    status is 200 and the body decodes to an object whose [result.valid] is
    the boolean true.  In particular every non-200 reply yields the nil
    error. *)
Theorem checkToken_nil_iff (endpoint token : string) :
  outcome (checkToken endpoint token) = Ret None <->
  exists resp, Do (checkTokenRequest endpoint token) = inl resp /\
               (StatusCode resp <> 200%Z \/ validTokenReply resp).
Proof.
  unfold outcome. rewrite checkToken_run. simpl. unfold validTokenReply.
  destruct (Do (checkTokenRequest endpoint token)) as [resp | err].
  - destruct (Z.eqb_spec (StatusCode resp) 200) as [E | N]; simpl.
    + destruct (json_Unmarshal (Body resp)) as [jsonBody | err] eqn:HU.
      * destruct (index jsonBody "result") as [| b | x | s | l | result] eqn:HR;
          try (split; [discriminate |];
               intros [r [Hr [Hn | [_ [m [res [Hm [Hres _]]]]]]]];
               injection Hr as <-; [contradiction | congruence]).
        destruct (index result "valid") as [| [|] | x | s | l | m] eqn:HV;
          try (split; [discriminate |];
               intros [r [Hr [Hn | [_ [m' [res [Hm [Hres Hval]]]]]]]];
               injection Hr as <-; [contradiction | congruence]).
        split; [intros _ | reflexivity].
        exists resp. split; [reflexivity |]. right. split; [assumption |].
        exists jsonBody, result. auto.
      * split; [discriminate |].
        intros [r [Hr [Hn | [_ [m [res [Hm _]]]]]]];
          injection Hr as <-; [contradiction | congruence].
    + split; [intros _ | reflexivity].
      exists resp. split; [reflexivity | left; assumption].
  - split; [discriminate |]. intros [r [Hr _]]. discriminate.
Qed.

End CheckToken.

(** C1, refuted as worded: against a server that answers 403 to
    [/_checkToken], [checkToken] returns the nil error (the case
    [Not authorized] of [Test_checkToken], which wants no error). *)
Lemma checkToken_403_succeeds : ~ checkTokenSpec (mockWorld [tokenNotAuthorized]).
Proof.
  intros H.
  destruct (H kuzzle "abc123") as [_ Hfail].
  destruct (Hfail {| StatusCode := 403; Body := response tokenNotAuthorized |})
    as [err Herr].
  - reflexivity.
  - discriminate.
  - vm_compute in Herr. discriminate.
Qed.

Section ProviderConfigure.
Context `{W : World}.

Lemma requests_checkConnection endpoint :
  requests (checkConnection endpoint) = [GET endpoint].
Proof. unfold requests. now rewrite checkConnection_run. Qed.

Lemma requests_checkToken endpoint token :
  requests (checkToken endpoint token) = [checkTokenRequest endpoint token].
Proof. unfold requests. now rewrite checkToken_run. Qed.

Lemma requests_tryAuthenticate endpoint username password :
  requests (tryAuthenticate endpoint username password)
  = [loginRequest endpoint username password].
Proof. unfold requests. now rewrite tryAuthenticate_run. Qed.

Lemma checkConnection_no_panic endpoint msg :
  outcome (checkConnection endpoint) <> Panic msg.
Proof.
  unfold outcome. rewrite checkConnection_run. simpl.
  destruct (Do (GET endpoint)) as [resp | err]; [| discriminate].
  destruct ((StatusCode resp =? 502) || (StatusCode resp =? 503))%Z; discriminate.
Qed.

(** After a successful connection check, [providerConfigure] follows the
    decision table [resolve]. *)
Lemma providerConfigure_resolve (d : ResourceData) :
  outcome (checkConnection (Get d "endpoint")) = Ret None ->
  run (providerConfigure d) =
  resolve (Get d "endpoint") (Get d "api_key")
          (Get d "username") (Get d "password").
Proof.
  intros Hconn.
  unfold providerConfigure, resolve, run. cbv zeta.
  set (endpoint := Get d "endpoint") in *.
  set (apiKey := Get d "api_key").
  set (username := Get d "username").
  set (password := Get d "password").
  unfold bind at 1.
  rewrite (checkConnection_stateless endpoint []), Hconn,
    requests_checkConnection.
  cbn [app].
  unfold andThen, authBlocks, andThen, passwordBlock, apiKeyBlock,
    anonymousBlock.
  destruct (nonEmpty username && nonEmpty password).
  - unfold bind.
    rewrite (tryAuthenticate_stateless endpoint username password [GET endpoint]),
      requests_tryAuthenticate.
    destruct (outcome (tryAuthenticate endpoint username password))
      as [[jwt [err |]] | msg]; cbn [app]; try reflexivity.
    unfold ret at 1.
    destruct (nonEmpty apiKey); [| reflexivity].
    rewrite (checkToken_stateless endpoint apiKey), requests_checkToken.
    destruct (outcome (checkToken endpoint apiKey)) as [[err |] | msg];
      reflexivity.
  - unfold bind, ret at 1.
    destruct (nonEmpty apiKey); [| reflexivity].
    rewrite (checkToken_stateless endpoint apiKey), requests_checkToken.
    destruct (outcome (checkToken endpoint apiKey)) as [[err |] | msg];
      reflexivity.
Qed.

Lemma providerConfigure_unreachable (d : ResourceData) (cause : error) :
  outcome (checkConnection (Get d "endpoint")) = Ret (Some cause) ->
  run (providerConfigure d) =
  (Ret (None, diag.Errorf ("Error connecting to Kuzzle: " ++ Error cause)),
   [GET (Get d "endpoint")]).
Proof.
  intros Hconn.
  unfold providerConfigure, run. cbv zeta. unfold bind.
  rewrite (checkConnection_stateless (Get d "endpoint") []), Hconn,
    requests_checkConnection.
  reflexivity.
Qed.

(** With an incomplete username/password pair the login block is a no-op. *)
Lemma providerConfigure_withoutLogin (d : ResourceData) :
  nonEmpty (Get d "username") && nonEmpty (Get d "password") = false ->
  run (providerConfigure d) = run (withoutLogin d).
Proof.
  intros Hpair.
  unfold providerConfigure, withoutLogin, run. cbv zeta.
  unfold bind at 1 3.
  destruct (checkConnection (Get d "endpoint") []) as [[[err |] | msg] t];
    try reflexivity.
  unfold authBlocks, passwordBlock. rewrite Hpair. reflexivity.
Qed.

(** Control reaches the anonymous block with no Config only when neither
    credential block was entered. *)
Lemma authBlocks_unset (endpoint apiKey username password : string)
  (diags : diag.Diagnostics) :
  outcome (authBlocks endpoint apiKey username password (None, []))
  = Ret (Next (None, diags)) ->
  nonEmpty username && nonEmpty password = false /\ nonEmpty apiKey = false.
Proof.
  unfold outcome, run, authBlocks, andThen, passwordBlock, apiKeyBlock.
  destruct (nonEmpty username && nonEmpty password).
  - unfold bind.
    rewrite (tryAuthenticate_stateless endpoint username password []).
    destruct (outcome (tryAuthenticate endpoint username password))
      as [[jwt [err |]] | msg]; cbn [fst]; try discriminate.
    unfold ret at 1.
    destruct (nonEmpty apiKey); [| discriminate].
    rewrite (checkToken_stateless endpoint apiKey).
    destruct (outcome (checkToken endpoint apiKey)) as [[err |] | msg];
      discriminate.
  - unfold bind, ret at 1.
    destruct (nonEmpty apiKey); [| intros _; split; reflexivity].
    rewrite (checkToken_stateless endpoint apiKey).
    destruct (outcome (checkToken endpoint apiKey)) as [[err |] | msg];
      discriminate.
Qed.

Lemma append_cancel (e a b : string) : e ++ a = e ++ b -> a = b.
Proof.
  induction e as [| c e IH]; simpl; intros H; [assumption |].
  injection H as H. auto.
Qed.

Lemma checkTokenRequest_not_login (endpoint token : string) :
  ~ isLogin endpoint (checkTokenRequest endpoint token).
Proof.
  unfold isLogin, checkTokenRequest. intros H.
  apply append_cancel in H. discriminate.
Qed.

Lemma providerConfigure_outcome (d : ResourceData) :
  outcome (checkConnection (Get d "endpoint")) = Ret None ->
  outcome (providerConfigure d) =
  fst (resolve (Get d "endpoint") (Get d "api_key")
               (Get d "username") (Get d "password")).
Proof. intros Hconn. unfold outcome at 1. now rewrite providerConfigure_resolve. Qed.

Lemma providerConfigure_requests (d : ResourceData) :
  outcome (checkConnection (Get d "endpoint")) = Ret None ->
  requests (providerConfigure d) =
  snd (resolve (Get d "endpoint") (Get d "api_key")
               (Get d "username") (Get d "password")).
Proof. intros Hconn. unfold requests. now rewrite providerConfigure_resolve. Qed.

End ProviderConfigure.

Section Resolution.
Context `{W : World}.

(** C6: when the connection check fails with cause [cause],
    [providerConfigure] returns the nil Config with the single Error
    diagnostic [Error connecting to Kuzzle: cause], and the GET of the
    connection check is the only request sent: neither [tryAuthenticate] nor
    [checkToken] is invoked. *)
Theorem connection_failure_is_fatal (d : ResourceData) (cause : error) :
  outcome (checkConnection (Get d "endpoint")) = Ret (Some cause) ->
  run (providerConfigure d) =
  (Ret (None,
        [{| diag.severity := diag.Error;
            diag.Summary := "Error connecting to Kuzzle: " ++ Error cause;
            diag.Detail := EmptyString |}]),
   [GET (Get d "endpoint")]).
Proof.
  intros Hconn. now rewrite (providerConfigure_unreachable d cause Hconn).
Qed.

(** C7: with a reachable server, both username and password non-empty and
    no API key, a successful [tryAuthenticate] returning [jwt] gives the
    Config of the endpoint with token [jwt] and no diagnostic; a failed
    [tryAuthenticate] gives no Config and the single Error diagnostic
    [Kuzzle authentication failed]. *)
Theorem password_authentication (d : ResourceData) :
  outcome (checkConnection (Get d "endpoint")) = Ret None ->
  nonEmpty (Get d "username") = true ->
  nonEmpty (Get d "password") = true ->
  nonEmpty (Get d "api_key") = false ->
  (forall jwt,
     outcome (tryAuthenticate (Get d "endpoint") (Get d "username")
                              (Get d "password")) = Ret (jwt, None) ->
     outcome (providerConfigure d) =
     Ret (Some {| Endpoint := Get d "endpoint"; Token := jwt |}, []))
  /\
  (forall jwt err,
     outcome (tryAuthenticate (Get d "endpoint") (Get d "username")
                              (Get d "password")) = Ret (jwt, Some err) ->
     outcome (providerConfigure d) =
     Ret (None,
          [{| diag.severity := diag.Error;
              diag.Summary := "Kuzzle authentication failed";
              diag.Detail := Error err |}])).
Proof.
  intros Hconn Hu Hp Hk.
  rewrite (providerConfigure_outcome d Hconn).
  unfold resolve. cbv zeta. rewrite Hu, Hp, Hk. cbn [andb].
  split.
  - intros jwt Hlogin. rewrite Hlogin. reflexivity.
  - intros jwt err Hlogin. rewrite Hlogin. reflexivity.
Qed.

(** C2, what the code does where the claim expects the nil Config: with a
    reachable server, both username and password non-empty,
    [tryAuthenticate] returning [jwt], a non-empty API key and [checkToken]
    returning an error, [providerConfigure] returns the single Error
    diagnostic [Kuzzle provided API key is invalid] together with the Config
    of the login.  The key is checked although a username/password pair was
    provided, and the bare return at source line 115 hands back the Config
    assigned at line 100, where the other error paths (lines 85 and 97)
    return nil. *)
Theorem apiKey_failure_keeps_config (d : ResourceData) (jwt : string)
  (err : error) :
  outcome (checkConnection (Get d "endpoint")) = Ret None ->
  nonEmpty (Get d "username") = true ->
  nonEmpty (Get d "password") = true ->
  outcome (tryAuthenticate (Get d "endpoint") (Get d "username")
                           (Get d "password")) = Ret (jwt, None) ->
  nonEmpty (Get d "api_key") = true ->
  outcome (checkToken (Get d "endpoint") (Get d "api_key")) = Ret (Some err) ->
  outcome (providerConfigure d) =
  Ret (Some {| Endpoint := Get d "endpoint"; Token := jwt |},
       [{| diag.severity := diag.Error;
           diag.Summary := "Kuzzle provided API key is invalid";
           diag.Detail := Error err |}]).
Proof.
  intros Hconn Hu Hp Hlogin Hk Hcheck.
  rewrite (providerConfigure_outcome d Hconn).
  unfold resolve. cbv zeta.
  rewrite Hu, Hp, Hk, Hlogin, Hcheck. reflexivity.
Qed.


(** C8: with a reachable server, when control leaves the two credential
    blocks with no Config set, [providerConfigure] returns the Config of the
    endpoint with the empty token together with exactly one diagnostic, the
    Warning about missing credentials. *)
Theorem anonymous_fallback (d : ResourceData) (diags : diag.Diagnostics) :
  outcome (checkConnection (Get d "endpoint")) = Ret None ->
  outcome (authBlocks (Get d "endpoint") (Get d "api_key")
                      (Get d "username") (Get d "password") (None, []))
  = Ret (Next (None, diags)) ->
  outcome (providerConfigure d) =
  Ret (Some {| Endpoint := Get d "endpoint"; Token := EmptyString |},
       [{| diag.severity := diag.Warning;
           diag.Summary := "Kuzzle authentication credentials not provided";
           diag.Detail := "No authentication credentials provided. Using anonymous authentication..." |}]).
Proof.
  intros Hconn Hunset.
  apply authBlocks_unset in Hunset. destruct Hunset as [Hpair Hkey].
  rewrite (providerConfigure_outcome d Hconn).
  unfold resolve. cbv zeta. rewrite Hpair, Hkey. reflexivity.
Qed.

(** C9: with a reachable server and exactly one of username and password
    non-empty, [providerConfigure] sends no request to the login route, and
    behaves as the configuration pass without the username/password block:
    the API key check if a key is given, the anonymous fallback otherwise. *)
Theorem partial_credentials_ignored (d : ResourceData) :
  outcome (checkConnection (Get d "endpoint")) = Ret None ->
  (nonEmpty (Get d "username") = true /\ nonEmpty (Get d "password") = false)
  \/ (nonEmpty (Get d "username") = false /\ nonEmpty (Get d "password") = true) ->
  Forall (fun r => ~ isLogin (Get d "endpoint") r)
         (requests (providerConfigure d))
  /\ run (providerConfigure d) = run (withoutLogin d).
Proof.
  intros Hconn Hone.
  assert (Hpair : nonEmpty (Get d "username") && nonEmpty (Get d "password")
                  = false).
  { destruct Hone as [[-> ->] | [-> ->]]; reflexivity. }
  split; [| exact (providerConfigure_withoutLogin d Hpair)].
  rewrite (providerConfigure_requests d Hconn).
  unfold resolve. cbv zeta. rewrite Hpair.
  destruct (nonEmpty (Get d "api_key")).
  - destruct (outcome (checkToken _ _)) as [[err |] | msg]; cbn [snd];
      repeat constructor; auto using checkTokenRequest_not_login.
  - repeat constructor. auto.
Qed.

End Resolution.

Section Faults.
Context `{W : World}.

(** A 200 login reply whose decoded [result] is an object without a string
    [jwt] makes [tryAuthenticate] panic. *)
Lemma tryAuthenticate_panics (endpoint username password : string)
  (resp : Response) (jsonBody result : gomap) :
  Do (loginRequest endpoint username password) = inl resp ->
  StatusCode resp = 200%Z ->
  json_Unmarshal (Body resp) = inl jsonBody ->
  index jsonBody "result" = Map result ->
  (forall jwt, index result "jwt" <> Str jwt) ->
  outcome (tryAuthenticate endpoint username password)
  = Panic (conversionPanic (index result "jwt") "string").
Proof.
  intros Hdo Hstatus Hbody Hresult Hjwt.
  unfold outcome. rewrite tryAuthenticate_run, Hdo, Hstatus, Hbody, Hresult.
  cbn [fst Z.eqb Pos.eqb negb].
  destruct (index result "jwt") as [| b | x | s | l | m]; try reflexivity.
  destruct (Hjwt s eq_refl).
Qed.

(** A 200 token reply whose decoded [result] is an object without a boolean
    [valid] makes [checkToken] panic. *)
Lemma checkToken_panics (endpoint token : string)
  (resp : Response) (jsonBody result : gomap) :
  Do (checkTokenRequest endpoint token) = inl resp ->
  StatusCode resp = 200%Z ->
  json_Unmarshal (Body resp) = inl jsonBody ->
  index jsonBody "result" = Map result ->
  (forall b, index result "valid" <> Bool b) ->
  outcome (checkToken endpoint token)
  = Panic (conversionPanic (index result "valid") "bool").
Proof.
  intros Hdo Hstatus Hbody Hresult Hvalid.
  unfold outcome. rewrite checkToken_run, Hdo, Hstatus, Hbody, Hresult.
  cbn [fst Z.eqb Pos.eqb negb].
  destruct (index result "valid") as [| b | x | s | l | m]; try reflexivity.
  destruct (Hvalid b eq_refl).
Qed.

(** When [url.Parse] returns an error and the nil URL, the validator
    dereferences the nil pointer. *)
Lemma endpointValidateFunc_parse_error (v k : string) (err : error) :
  url_Parse v = (None, Some err) ->
  endpointValidateFunc v k = Panic nilDereference.
Proof. intros H. unfold endpointValidateFunc. now rewrite H. Qed.

(** With a parsed URL the validator returns its accumulated errors. *)
Lemma endpointValidateFunc_parsed (v k : string) (u : URL) (err : option error) :
  url_Parse v = (Some u, err) ->
  exists errors, endpointValidateFunc v k = Ret ([], errors).
Proof. intros H. unfold endpointValidateFunc. rewrite H. eexists. reflexivity. Qed.

End Faults.

(** C3, at the failing inputs: a 200 reply with the well-formed body
    [{result: {}}] makes [tryAuthenticate] panic on the missing [jwt], and
    [checkToken] panic on the missing [valid]; neither returns an error. *)
Theorem missing_field_panics :
  outcome (@tryAuthenticate (mockWorld [loginNoField]) kuzzle "admin" "secret")
  = Panic "interface conversion: interface {} is nil, not string"
  /\ outcome (@checkToken (mockWorld [tokenNoField]) kuzzle "abc123")
     = Panic "interface conversion: interface {} is nil, not bool".
Proof. split; vm_compute; reflexivity. Qed.

(** C10, at the failing input: on the endpoint [://kuzzle:7512], which
    [url.Parse] rejects (missing protocol scheme), the validator does not
    return its errors: it panics on the nil URL. *)
Theorem validator_nil_dereference :
  fst (Url.Parse "://kuzzle:7512") = None
  /\ @endpointValidateFunc (mockWorld []) "://kuzzle:7512" "endpoint"
     = Panic nilDereference.
Proof. split; vm_compute; reflexivity. Qed.

(** C2, the claim fails on the code: login accepted, API key rejected; the
    Config of the login is returned with the diagnostic. *)
Lemma apiKey_failure_returns_config :
  ~ apiKeyFailureSpec (mockWorld [reachable; loginOK; tokenInvalid])
                      (settings "abc123" "admin" "secret").
Proof.
  intros H. unfold apiKeyFailureSpec in H. cbv zeta in H.
  destruct H as [diags [Hnil _]].
  - reflexivity.
  - reflexivity.
  - exists "mySuperAuthenticationToken". reflexivity.
  - reflexivity.
  - eexists. vm_compute. reflexivity.
  - vm_compute in Hnil. discriminate.
Qed.



(** C2, at the failing input: login accepted and key rejected by a mocked
    server. *)
Lemma apiKey_failure_keeps_config_witness :
  outcome (@providerConfigure (mockWorld [reachable; loginOK; tokenInvalid])
                              (settings "abc123" "admin" "secret"))
  = Ret (Some {| Endpoint := kuzzle; Token := "mySuperAuthenticationToken" |},
         [apiKeyInvalid (Go.Errorf "Kuzzle API key is invalid")]).
Proof.
  apply (@apiKey_failure_keeps_config
           (mockWorld [reachable; loginOK; tokenInvalid])
           (settings "abc123" "admin" "secret")
           "mySuperAuthenticationToken"
           (Go.Errorf "Kuzzle API key is invalid"));
    vm_compute; reflexivity.
Defined.

(** C6, witness: no mock installed, the endpoint cannot be reached. *)
Lemma connection_failure_is_fatal_witness :
  run (@providerConfigure (mockWorld []) (settings "abc123" "admin" "secret"))
  = (Ret (None,
          [{| diag.severity := diag.Error;
              diag.Summary := "Error connecting to Kuzzle: dial tcp: lookup kuzzle: no such host";
              diag.Detail := EmptyString |}]),
     [GET kuzzle]).
Proof.
  apply (@connection_failure_is_fatal (mockWorld [])
           (settings "abc123" "admin" "secret")
           (Go.Errorf "dial tcp: lookup kuzzle: no such host")).
  vm_compute; reflexivity.
Defined.

(** C7, witness: an accepted login and a rejected one. *)
Lemma password_authentication_witness :
  outcome (@providerConfigure (mockWorld [reachable; loginOK])
                              (settings EmptyString "admin" "secret"))
  = Ret (Some {| Endpoint := kuzzle; Token := "mySuperAuthenticationToken" |}, [])
  /\ outcome (@providerConfigure (mockWorld [reachable; loginUnauthorized])
                                 (settings EmptyString "admin" "secret"))
     = Ret (None, [authenticationFailed (Go.Errorf "Kuzzle authentication failed")]).
Proof.
  split.
  - apply (proj1 (@password_authentication (mockWorld [reachable; loginOK])
                    (settings EmptyString "admin" "secret")
                    eq_refl eq_refl eq_refl eq_refl)).
    vm_compute; reflexivity.
  - apply (proj2 (@password_authentication
                    (mockWorld [reachable; loginUnauthorized])
                    (settings EmptyString "admin" "secret")
                    eq_refl eq_refl eq_refl eq_refl)
                 EmptyString (Go.Errorf "Kuzzle authentication failed")).
    vm_compute; reflexivity.
Defined.

(** C8, witness: a reachable server and no credentials. *)
Lemma anonymous_fallback_witness :
  outcome (@providerConfigure (mockWorld [reachable])
                              (settings EmptyString EmptyString EmptyString))
  = Ret (Some {| Endpoint := kuzzle; Token := EmptyString |},
         [credentialsNotProvided]).
Proof.
  apply (@anonymous_fallback (mockWorld [reachable])
           (settings EmptyString EmptyString EmptyString) []);
    vm_compute; reflexivity.
Defined.

(** C9, witness: a username without a password, and an API key. *)
Lemma partial_credentials_ignored_witness :
  Forall (fun r => ~ isLogin kuzzle r)
         (requests (@providerConfigure (mockWorld [reachable; loginOK; tokenValid])
                                       (settings "abc123" "admin" EmptyString)))
  /\ run (@providerConfigure (mockWorld [reachable; loginOK; tokenValid])
                             (settings "abc123" "admin" EmptyString))
     = run (@withoutLogin (mockWorld [reachable; loginOK; tokenValid])
                          (settings "abc123" "admin" EmptyString)).
Proof.
  apply (@partial_credentials_ignored
           (mockWorld [reachable; loginOK; tokenValid])
           (settings "abc123" "admin" EmptyString)).
  - vm_compute; reflexivity.
  - left. split; vm_compute; reflexivity.
Defined.

(** ** Further properties of the validator, the helpers and the policy *)

Section Validator.
Context `{W : World}.

(** X1: the endpoint validator returns no warning and no error if and only
    if the endpoint is non-empty and [url.Parse] returns a URL, without
    error, whose scheme is [http] or [https]. *)
Theorem validator_accepts_iff (v k : string) :
  endpointValidateFunc v k = Ret ([], []) <->
  v <> EmptyString /\
  exists u, url_Parse v = (Some u, None) /\
            (Scheme u = "http" \/ Scheme u = "https").
Proof.
  unfold endpointValidateFunc.
  destruct (url_Parse v) as [[u |] [err |]]; cbn [app].
  - split.
    + destruct (String.eqb v EmptyString), (negb _ && negb _); discriminate.
    + intros [_ [u' [Hu _]]]. discriminate.
  - destruct (String.eqb_spec v EmptyString) as [Hv | Hv];
      destruct (String.eqb_spec (Scheme u) "http") as [Hh | Hh];
      destruct (String.eqb_spec (Scheme u) "https") as [Hs | Hs];
      cbn [negb andb app]; split;
      try discriminate;
      try (intros [Hne [u' [Hu [H1 | H1]]]]; injection Hu as <-; congruence);
      intros _; (split; [assumption | exists u; auto]).
  - split; [discriminate |]. intros [_ [u' [Hu _]]]. discriminate.
  - split; [discriminate |]. intros [_ [u' [Hu _]]]. discriminate.
Qed.

(** X2: the endpoint validator panics exactly when [url.Parse] returns the
    nil URL; whenever a URL is returned it returns its error list. *)
Theorem validator_panics_iff (v k : string) :
  (exists msg, endpointValidateFunc v k = Panic msg) <->
  fst (url_Parse v) = None.
Proof.
  unfold endpointValidateFunc.
  destruct (url_Parse v) as [[u |] err]; cbn [fst].
  - split; [intros [msg H]; discriminate | discriminate].
  - split; [reflexivity | intros _; eexists; reflexivity].
Qed.
End Validator.

Section HelpersMore.
Context `{W : World}.

(** X3: [tryAuthenticate] returns [jwt] with the nil error if and only if
    the login POST was answered with status 200 and a body that decodes to an
    object whose [result] is an object with the string [jwt] under the key
    [jwt]. *)
Theorem tryAuthenticate_jwt_iff (endpoint username password jwt : string) :
  outcome (tryAuthenticate endpoint username password) = Ret (jwt, None) <->
  exists resp jsonBody result,
    Do (loginRequest endpoint username password) = inl resp /\
    StatusCode resp = 200%Z /\
    json_Unmarshal (Body resp) = inl jsonBody /\
    index jsonBody "result" = Map result /\
    index result "jwt" = Str jwt.
Proof.
  unfold outcome. rewrite tryAuthenticate_run. cbn [fst].
  destruct (Do (loginRequest endpoint username password)) as [resp | err].
  2:{ split; [discriminate |]. intros (r & _ & _ & Hr & _). discriminate. }
  destruct (Z.eqb_spec (StatusCode resp) 200) as [Hs | Hs]; cbn [negb].
  2:{ split; [discriminate |].
      intros (r & _ & _ & Hr & Hs' & _). injection Hr as <-. contradiction. }
  destruct (json_Unmarshal (Body resp)) as [jsonBody | err] eqn:HU.
  2:{ split; [discriminate |].
      intros (r & m & _ & Hr & _ & Hm & _). injection Hr as <-. congruence. }
  destruct (index jsonBody "result") as [| b | x | s | l | result] eqn:HR;
    try (split; [discriminate |];
         intros (r & m & res & Hr & _ & Hm & Hres & _);
         injection Hr as <-; congruence).
  destruct (index result "jwt") as [| b | x | s | l | m] eqn:HJ;
    try (split; [discriminate |];
         intros (r & m' & res & Hr & _ & Hm & Hres & Hj);
         injection Hr as <-; congruence).
  split.
  - intros H. injection H as <-. exists resp, jsonBody, result. auto.
  - intros (r & m' & res & Hr & _ & Hm & Hres & Hj).
    injection Hr as <-. congruence.
Qed.

(** X4: [tryAuthenticate] returns an error in exactly three cases, always
    with the empty string as token: the transport error when the POST cannot
    be sent; [Kuzzle authentication failed] on a status other than 200; the
    decoder's error on a 200 reply whose body does not decode. *)
Theorem tryAuthenticate_error_iff (endpoint username password jwt : string)
  (err : error) :
  outcome (tryAuthenticate endpoint username password) = Ret (jwt, Some err) <->
  jwt = EmptyString /\
  (Do (loginRequest endpoint username password) = inr err
   \/ (exists resp, Do (loginRequest endpoint username password) = inl resp /\
                    StatusCode resp <> 200%Z /\
                    err = Go.Errorf "Kuzzle authentication failed")
   \/ (exists resp, Do (loginRequest endpoint username password) = inl resp /\
                    StatusCode resp = 200%Z /\
                    json_Unmarshal (Body resp) = inr err)).
Proof.
  unfold outcome. rewrite tryAuthenticate_run. cbn [fst].
  destruct (Do (loginRequest endpoint username password)) as [resp | e].
  2:{ split.
      - intros H. injection H as <- <-. auto.
      - intros [-> [H | [(r & Hr & _) | (r & Hr & _)]]]; try discriminate.
        now injection H as ->. }
  destruct (Z.eqb_spec (StatusCode resp) 200) as [Hs | Hs]; cbn [negb].
  2:{ split.
      - intros H. injection H as <- <-. split; [reflexivity |].
        right. left. exists resp. auto.
      - intros [-> [H | [(r & Hr & _ & ->) | (r & Hr & Hs' & _)]]];
          try discriminate; try reflexivity.
        injection Hr as <-. contradiction. }
  destruct (json_Unmarshal (Body resp)) as [jsonBody | e] eqn:HU.
  - split.
    + destruct (index jsonBody "result") as [| b | x | s | l | result];
        try discriminate.
      destruct (index result "jwt"); discriminate.
    + intros [_ [H | [(r & Hr & Hs' & _) | (r & Hr & _ & Hu)]]];
        try discriminate; injection Hr as <-; congruence.
  - split.
    + intros H. injection H as <- <-. split; [reflexivity |].
      right. right. exists resp. auto.
    + intros [-> [H | [(r & Hr & Hs' & _) | (r & Hr & _ & Hu)]]];
        try discriminate; injection Hr as <-; congruence.
Qed.

(** X5: [tryAuthenticate] panics exactly on a 200 reply whose body decodes
    but does not hold a string at [result.jwt] ([result] absent or not an
    object, [jwt] absent or not a string). *)
Theorem tryAuthenticate_panics_iff (endpoint username password : string) :
  (exists msg, outcome (tryAuthenticate endpoint username password) = Panic msg)
  <->
  exists resp jsonBody,
    Do (loginRequest endpoint username password) = inl resp /\
    StatusCode resp = 200%Z /\
    json_Unmarshal (Body resp) = inl jsonBody /\
    ~ (exists result jwt, index jsonBody "result" = Map result /\
                          index result "jwt" = Str jwt).
Proof.
  unfold outcome. rewrite tryAuthenticate_run. cbn [fst].
  destruct (Do (loginRequest endpoint username password)) as [resp | e].
  2:{ split; [intros [msg H]; discriminate |].
      intros (r & _ & Hr & _). discriminate. }
  destruct (Z.eqb_spec (StatusCode resp) 200) as [Hs | Hs]; cbn [negb].
  2:{ split; [intros [msg H]; discriminate |].
      intros (r & _ & Hr & Hs' & _). injection Hr as <-. contradiction. }
  destruct (json_Unmarshal (Body resp)) as [jsonBody | e] eqn:HU.
  2:{ split; [intros [msg H]; discriminate |].
      intros (r & m & Hr & _ & Hm & _). injection Hr as <-. congruence. }
  destruct (index jsonBody "result") as [| b | x | s | l | result] eqn:HR;
    try (split; [intros _ | intros _; eexists; reflexivity];
         exists resp, jsonBody; repeat split; trivial;
         intros (res & j & Hres & _); congruence).
  destruct (index result "jwt") as [| b | x | s | l | m] eqn:HJ;
    try (split; [intros _ | intros _; eexists; reflexivity];
         exists resp, jsonBody; repeat split; trivial;
         intros (res & j & Hres & Hj); congruence).
  split; [intros [msg H]; discriminate |].
  intros (r & m' & Hr & _ & Hm & Hno). injection Hr as <-.
  exfalso. apply Hno. exists result, s. split; congruence.
Qed.

(** X6: [checkToken] returns an error in exactly three cases: the transport
    error when the POST cannot be sent; the decoder's error on a 200 reply
    whose body does not decode; [Kuzzle API key is invalid] on a 200 reply
    whose [result.valid] is the boolean false. *)
Theorem checkToken_error_iff (endpoint token : string) (err : error) :
  outcome (checkToken endpoint token) = Ret (Some err) <->
  Do (checkTokenRequest endpoint token) = inr err
  \/ exists resp,
       Do (checkTokenRequest endpoint token) = inl resp /\
       StatusCode resp = 200%Z /\
       (json_Unmarshal (Body resp) = inr err
        \/ exists jsonBody result,
             json_Unmarshal (Body resp) = inl jsonBody /\
             index jsonBody "result" = Map result /\
             index result "valid" = Bool false /\
             err = Go.Errorf "Kuzzle API key is invalid").
Proof.
  unfold outcome. rewrite checkToken_run. cbn [fst].
  destruct (Do (checkTokenRequest endpoint token)) as [resp | e].
  2:{ split.
      - intros H. injection H as <-. auto.
      - intros [H | (r & Hr & _)]; [now injection H as -> | discriminate]. }
  destruct (Z.eqb_spec (StatusCode resp) 200) as [Hs | Hs]; cbn [negb].
  2:{ split; [discriminate |].
      intros [H | (r & Hr & Hs' & _)]; [discriminate |].
      injection Hr as <-. contradiction. }
  destruct (json_Unmarshal (Body resp)) as [jsonBody | e] eqn:HU.
  2:{ split.
      - intros H. injection H as <-. right. exists resp. auto.
      - intros [H | (r & Hr & _ & [Hu | (m & res & Hm & _)])];
          try discriminate; injection Hr as <-; congruence. }
  destruct (index jsonBody "result") as [| b | x | s | l | result] eqn:HR;
    try (split; [discriminate |];
         intros [H | (r & Hr & _ & [Hu | (m & res & Hm & Hres & _)])];
         try discriminate; injection Hr as <-; congruence).
  destruct (index result "valid") as [| [|] | x | s | l | m] eqn:HV;
    try (split; [discriminate |];
         intros [H | (r & Hr & _ & [Hu | (m' & res & Hm & Hres & Hval & _)])];
         try discriminate; injection Hr as <-; congruence).
  split.
  - intros H. injection H as <-. right. exists resp.
    repeat split; trivial. right. exists jsonBody, result. auto.
  - intros [H | (r & Hr & _ & [Hu | (m' & res & Hm & Hres & Hval & ->)])];
      try discriminate; try reflexivity.
    injection Hr as <-. congruence.
Qed.

(** X7: [checkToken] panics exactly on a 200 reply whose body decodes but
    does not hold a boolean at [result.valid]. *)
Theorem checkToken_panics_iff (endpoint token : string) :
  (exists msg, outcome (checkToken endpoint token) = Panic msg) <->
  exists resp jsonBody,
    Do (checkTokenRequest endpoint token) = inl resp /\
    StatusCode resp = 200%Z /\
    json_Unmarshal (Body resp) = inl jsonBody /\
    ~ (exists result valid, index jsonBody "result" = Map result /\
                            index result "valid" = Bool valid).
Proof.
  unfold outcome. rewrite checkToken_run. cbn [fst].
  destruct (Do (checkTokenRequest endpoint token)) as [resp | e].
  2:{ split; [intros [msg H]; discriminate |].
      intros (r & _ & Hr & _). discriminate. }
  destruct (Z.eqb_spec (StatusCode resp) 200) as [Hs | Hs]; cbn [negb].
  2:{ split; [intros [msg H]; discriminate |].
      intros (r & _ & Hr & Hs' & _). injection Hr as <-. contradiction. }
  destruct (json_Unmarshal (Body resp)) as [jsonBody | e] eqn:HU.
  2:{ split; [intros [msg H]; discriminate |].
      intros (r & m & Hr & _ & Hm & _). injection Hr as <-. congruence. }
  destruct (index jsonBody "result") as [| b | x | s | l | result] eqn:HR;
    try (split; [intros _ | intros _; eexists; reflexivity];
         exists resp, jsonBody; repeat split; trivial;
         intros (res & j & Hres & _); congruence).
  destruct (index result "valid") as [| b | x | s | l | m] eqn:HV;
    try (split; [intros _ | intros _; eexists; reflexivity];
         exists resp, jsonBody; repeat split; trivial;
         intros (res & j & Hres & Hj); congruence).
  split; [intros [msg H]; destruct b; discriminate |].
  intros (r & m' & Hr & _ & Hm & Hno). injection Hr as <-.
  exfalso. apply Hno. exists result, b. split; congruence.
Qed.

End HelpersMore.

Section Policy.
Context `{W : World}.

(** The two projections of the run on an unreachable server. *)
Lemma providerConfigure_outcome_unreachable (d : ResourceData) (cause : error) :
  outcome (checkConnection (Get d "endpoint")) = Ret (Some cause) ->
  outcome (providerConfigure d) =
  Ret (None, diag.Errorf ("Error connecting to Kuzzle: " ++ Error cause)).
Proof.
  intros Hconn. unfold outcome at 1.
  now rewrite (providerConfigure_unreachable d cause Hconn).
Qed.

Lemma providerConfigure_requests_unreachable (d : ResourceData) (cause : error) :
  outcome (checkConnection (Get d "endpoint")) = Ret (Some cause) ->
  requests (providerConfigure d) = [GET (Get d "endpoint")].
Proof.
  intros Hconn. unfold requests.
  now rewrite (providerConfigure_unreachable d cause Hconn).
Qed.

(** Case analysis along the decision table of [providerConfigure]. *)
Ltac policy_cases d :=
  destruct (outcome (checkConnection (Get d "endpoint")))
    as [[cause |] | msg0] eqn:Hconn;
  [ rewrite ?(providerConfigure_outcome_unreachable d cause Hconn),
            ?(providerConfigure_requests_unreachable d cause Hconn)
  | rewrite ?(providerConfigure_outcome d Hconn),
            ?(providerConfigure_requests d Hconn);
    unfold resolve; cbv zeta;
    destruct (nonEmpty (Get d "username") && nonEmpty (Get d "password"))
      eqn:Hpair;
    [ destruct (outcome (tryAuthenticate _ _ _)) as [[jwt0 [err0 |]] | msg0]
        eqn:Hlogin;
      [ | destruct (nonEmpty (Get d "api_key")) eqn:Hkey;
          [ destruct (outcome (checkToken _ _)) as [[err1 |] | msg1] eqn:Hcheck
          | ]
        | ]
    | destruct (nonEmpty (Get d "api_key")) eqn:Hkey;
      [ destruct (outcome (checkToken _ _)) as [[err1 |] | msg1] eqn:Hcheck
      | ] ]
  | destruct (checkConnection_no_panic _ _ Hconn) ];
  cbn [fst snd].

(** X8: a configuration pass sends the GET of the connection check first,
    then at most the login POST, then at most the token-check POST, in that
    order (three requests at most); the login is sent only when username and
    password are both non-empty, the token check only when the API key is
    non-empty. *)
Theorem providerConfigure_requests_shape (d : ResourceData) :
  exists sentLogin sentCheck : bool,
    requests (providerConfigure d) =
    (GET (Get d "endpoint")
       :: (if sentLogin
           then [loginRequest (Get d "endpoint") (Get d "username")
                              (Get d "password")]
           else [])
       ++ (if sentCheck
           then [checkTokenRequest (Get d "endpoint") (Get d "api_key")]
           else []))%list
    /\ (sentLogin = true ->
        nonEmpty (Get d "username") && nonEmpty (Get d "password") = true)
    /\ (sentCheck = true -> nonEmpty (Get d "api_key") = true).
Proof.
  policy_cases d;
    first
      [ now (exists false, false; repeat split; try reflexivity; discriminate)
      | now (exists true, false; repeat split; try reflexivity; discriminate)
      | now (exists false, true; repeat split; try reflexivity; discriminate)
      | now (exists true, true; repeat split; reflexivity) ].
Qed.

(** X9: with a reachable server, a non-empty API key that [checkToken]
    accepts becomes the token of the Config, with no diagnostic, whether the
    login block was skipped or succeeded: the jwt of a successful login is
    overwritten by the key. *)
Theorem valid_apiKey_wins (d : ResourceData) :
  outcome (checkConnection (Get d "endpoint")) = Ret None ->
  nonEmpty (Get d "api_key") = true ->
  outcome (checkToken (Get d "endpoint") (Get d "api_key")) = Ret None ->
  (nonEmpty (Get d "username") && nonEmpty (Get d "password") = false
   \/ exists jwt,
        outcome (tryAuthenticate (Get d "endpoint") (Get d "username")
                                 (Get d "password")) = Ret (jwt, None)) ->
  outcome (providerConfigure d) =
  Ret (Some {| Endpoint := Get d "endpoint"; Token := Get d "api_key" |}, []).
Proof.
  intros Hconn Hkey Hcheck Hlogin.
  rewrite (providerConfigure_outcome d Hconn). unfold resolve. cbv zeta.
  rewrite Hkey, Hcheck.
  destruct Hlogin as [-> | [jwt Hjwt]]; [reflexivity |].
  rewrite Hjwt. destruct (nonEmpty _ && nonEmpty _); reflexivity.
Qed.

(** X10: with a reachable server, no complete username/password pair and a
    non-empty API key, a reply to the token check with any status other than
    200 makes [providerConfigure] return the Config carrying that key, with
    no diagnostic, after the GET and the token-check POST. *)
Theorem refused_token_accepted (d : ResourceData) (resp : Response) :
  outcome (checkConnection (Get d "endpoint")) = Ret None ->
  nonEmpty (Get d "username") && nonEmpty (Get d "password") = false ->
  nonEmpty (Get d "api_key") = true ->
  Do (checkTokenRequest (Get d "endpoint") (Get d "api_key")) = inl resp ->
  StatusCode resp <> 200%Z ->
  run (providerConfigure d) =
  (Ret (Some {| Endpoint := Get d "endpoint"; Token := Get d "api_key" |}, []),
   [GET (Get d "endpoint");
    checkTokenRequest (Get d "endpoint") (Get d "api_key")]).
Proof.
  intros Hconn Hpair Hkey Hdo Hstatus.
  rewrite (providerConfigure_resolve d Hconn). unfold resolve. cbv zeta.
  rewrite Hpair, Hkey.
  unfold outcome at 1. rewrite checkToken_run, Hdo. cbn [fst].
  destruct (Z.eqb_spec (StatusCode resp) 200); [contradiction | reflexivity].
Qed.

(** X11: with a reachable server, no complete username/password pair and a
    non-empty API key for which [checkToken] returns an error,
    [providerConfigure] returns no Config and the single Error diagnostic
    [Kuzzle provided API key is invalid] whose detail is the error text; no
    anonymous fallback takes place. *)
Theorem lonely_key_rejected (d : ResourceData) (err : error) :
  outcome (checkConnection (Get d "endpoint")) = Ret None ->
  nonEmpty (Get d "username") && nonEmpty (Get d "password") = false ->
  nonEmpty (Get d "api_key") = true ->
  outcome (checkToken (Get d "endpoint") (Get d "api_key")) = Ret (Some err) ->
  run (providerConfigure d) =
  (Ret (None,
        [{| diag.severity := diag.Error;
            diag.Summary := "Kuzzle provided API key is invalid";
            diag.Detail := Error err |}]),
   [GET (Get d "endpoint");
    checkTokenRequest (Get d "endpoint") (Get d "api_key")]).
Proof.
  intros Hconn Hpair Hkey Hcheck.
  rewrite (providerConfigure_resolve d Hconn). unfold resolve. cbv zeta.
  rewrite Hpair, Hkey, Hcheck. reflexivity.
Qed.

(** X12: with a reachable server and username and password both non-empty,
    a failed [tryAuthenticate] ends the pass at once, whatever the API key:
    no Config, the single Error diagnostic [Kuzzle authentication failed],
    and no token-check request is sent. *)
Theorem login_failure_skips_key_check (d : ResourceData) (jwt : string)
  (err : error) :
  outcome (checkConnection (Get d "endpoint")) = Ret None ->
  nonEmpty (Get d "username") && nonEmpty (Get d "password") = true ->
  outcome (tryAuthenticate (Get d "endpoint") (Get d "username")
                           (Get d "password")) = Ret (jwt, Some err) ->
  run (providerConfigure d) =
  (Ret (None,
        [{| diag.severity := diag.Error;
            diag.Summary := "Kuzzle authentication failed";
            diag.Detail := Error err |}]),
   [GET (Get d "endpoint");
    loginRequest (Get d "endpoint") (Get d "username") (Get d "password")]).
Proof.
  intros Hconn Hpair Hlogin.
  rewrite (providerConfigure_resolve d Hconn). unfold resolve. cbv zeta.
  rewrite Hpair, Hlogin. reflexivity.
Qed.

(** X13: the result of [providerConfigure] holds a Warning diagnostic if
    and only if the connection check succeeded, username and password are
    not both non-empty, and the API key is empty. *)
Theorem warning_iff_anonymous (d : ResourceData) :
  (exists config diags dg,
     outcome (providerConfigure d) = Ret (config, diags) /\
     In dg diags /\ diag.severity dg = diag.Warning)
  <->
  outcome (checkConnection (Get d "endpoint")) = Ret None /\
  nonEmpty (Get d "username") && nonEmpty (Get d "password") = false /\
  nonEmpty (Get d "api_key") = false.
Proof.
  policy_cases d;
    try (split;
         [ intros (c & ds & dg & Hout & Hin & Hsev);
           try discriminate;
           injection Hout as <- <-;
           repeat (destruct Hin as [<- | Hin]; [discriminate |]);
           destruct Hin
         | intros (H1 & H2 & H3); discriminate ]).
  split; [intros _; auto |]. intros _.
  eexists _, _, credentialsNotProvided.
  split; [reflexivity |]. split; [left |]; reflexivity.
Qed.

(** X14: whenever [providerConfigure] returns a Config, its endpoint is the
    configured one and its token is accounted for: it is the API key that
    [checkToken] accepted (no diagnostic); or the jwt of a successful login,
    with no diagnostic when the key is empty and with the invalid-key Error
    when the key was rejected; or the empty token with the single
    missing-credentials Warning when no credential was usable. *)
Theorem config_provenance (d : ResourceData) (config : Config)
  (diags : diag.Diagnostics) :
  outcome (providerConfigure d) = Ret (Some config, diags) ->
  Endpoint config = Get d "endpoint" /\
  ((Token config = Get d "api_key" /\ diags = [] /\
    nonEmpty (Get d "api_key") = true /\
    outcome (checkToken (Get d "endpoint") (Get d "api_key")) = Ret None)
   \/ (nonEmpty (Get d "username") && nonEmpty (Get d "password") = true /\
       outcome (tryAuthenticate (Get d "endpoint") (Get d "username")
                                (Get d "password")) = Ret (Token config, None) /\
       (diags = [] /\ nonEmpty (Get d "api_key") = false
        \/ exists err,
             diags = [apiKeyInvalid err] /\
             outcome (checkToken (Get d "endpoint") (Get d "api_key"))
             = Ret (Some err)))
   \/ (Token config = EmptyString /\ diags = [credentialsNotProvided] /\
       nonEmpty (Get d "username") && nonEmpty (Get d "password") = false /\
       nonEmpty (Get d "api_key") = false)).
Proof.
  policy_cases d; intros Hout; try discriminate;
    injection Hout as <- <-; (split; [reflexivity |]); cbn [Token].
  - right. left. repeat split; trivial. right. exists err1. auto.
  - left. auto.
  - right. left. repeat split; trivial. left. auto.
  - left. auto.
  - right. right. auto.
Qed.

(** X15: [providerConfigure] panics with a message exactly when the
    connection check succeeded and either the login was attempted and
    [tryAuthenticate] panicked with it, or the key check was reached (login
    skipped or successful, key non-empty) and [checkToken] panicked with
    it. *)
Theorem providerConfigure_panics_iff (d : ResourceData) (msg : string) :
  outcome (providerConfigure d) = Panic msg <->
  outcome (checkConnection (Get d "endpoint")) = Ret None /\
  ((nonEmpty (Get d "username") && nonEmpty (Get d "password") = true /\
    outcome (tryAuthenticate (Get d "endpoint") (Get d "username")
                             (Get d "password")) = Panic msg)
   \/ ((nonEmpty (Get d "username") && nonEmpty (Get d "password") = false
        \/ exists jwt,
             outcome (tryAuthenticate (Get d "endpoint") (Get d "username")
                                      (Get d "password")) = Ret (jwt, None))
       /\ nonEmpty (Get d "api_key") = true
       /\ outcome (checkToken (Get d "endpoint") (Get d "api_key"))
          = Panic msg)).
Proof.
  policy_cases d;
    (split;
     [ intros Hout; try discriminate; injection Hout as <-;
       (split; [reflexivity |])
     | intros (Hc & [(Hp & Hl) | ([Hp | (j & Hl)] & Hk & Hch)]);
       try discriminate; try congruence ]).
  - right. repeat split; trivial. right. exists jwt0. reflexivity.
  - left. auto.
  - right. auto.
Qed.

End Policy.

(** X9, witness: a login accepted and a key accepted; the key is the token. *)
Lemma valid_apiKey_wins_witness :
  outcome (@providerConfigure (mockWorld [reachable; loginOK; tokenValid])
                              (settings "abc123" "admin" "secret"))
  = Ret (Some {| Endpoint := kuzzle; Token := "abc123" |}, []).
Proof.
  apply (@valid_apiKey_wins (mockWorld [reachable; loginOK; tokenValid])
           (settings "abc123" "admin" "secret")); try (vm_compute; reflexivity).
  right. exists "mySuperAuthenticationToken". vm_compute; reflexivity.
Defined.

(** X10, witness: the token check answered with status 403. *)
Lemma refused_token_accepted_witness :
  run (@providerConfigure (mockWorld [reachable; tokenNotAuthorized])
                          (settings "abc123" EmptyString EmptyString))
  = (Ret (Some {| Endpoint := kuzzle; Token := "abc123" |}, []),
     [GET kuzzle;
      @checkTokenRequest (mockWorld [reachable; tokenNotAuthorized])
                         kuzzle "abc123"]).
Proof.
  apply (@refused_token_accepted (mockWorld [reachable; tokenNotAuthorized])
           (settings "abc123" EmptyString EmptyString)
           {| StatusCode := 403; Body := response tokenNotAuthorized |});
    try (vm_compute; reflexivity).
  vm_compute. discriminate.
Defined.

(** X11, witness: a key alone, which the server declares invalid. *)
Lemma lonely_key_rejected_witness :
  run (@providerConfigure (mockWorld [reachable; tokenInvalid])
                          (settings "abc123" EmptyString EmptyString))
  = (Ret (None, [apiKeyInvalid (Go.Errorf "Kuzzle API key is invalid")]),
     [GET kuzzle;
      @checkTokenRequest (mockWorld [reachable; tokenInvalid]) kuzzle "abc123"]).
Proof.
  apply (@lonely_key_rejected (mockWorld [reachable; tokenInvalid])
           (settings "abc123" EmptyString EmptyString)
           (Go.Errorf "Kuzzle API key is invalid"));
    vm_compute; reflexivity.
Defined.

(** X12, witness: a rejected login next to a key the server would accept. *)
Lemma login_failure_skips_key_check_witness :
  run (@providerConfigure
         (mockWorld [reachable; loginUnauthorized; tokenValid])
         (settings "abc123" "admin" "secret"))
  = (Ret (None,
          [authenticationFailed (Go.Errorf "Kuzzle authentication failed")]),
     [GET kuzzle;
      @loginRequest (mockWorld [reachable; loginUnauthorized; tokenValid])
                    kuzzle "admin" "secret"]).
Proof.
  apply (@login_failure_skips_key_check
           (mockWorld [reachable; loginUnauthorized; tokenValid])
           (settings "abc123" "admin" "secret")
           EmptyString (Go.Errorf "Kuzzle authentication failed"));
    vm_compute; reflexivity.
Defined.

(** X14, witness: the Config obtained from a key alone; of the three cases
    only the accepted key applies. *)
Lemma config_provenance_witness :
  outcome (@providerConfigure (mockWorld [reachable; tokenValid])
                              (settings "abc123" EmptyString EmptyString))
  = Ret (Some {| Endpoint := kuzzle; Token := "abc123" |}, [])
  /\ Endpoint {| Endpoint := kuzzle; Token := "abc123" |} = kuzzle
  /\ outcome (@checkToken (mockWorld [reachable; tokenValid]) kuzzle "abc123")
     = Ret None.
Proof.
  split; [vm_compute; reflexivity |].
  destruct (@config_provenance (mockWorld [reachable; tokenValid])
              (settings "abc123" EmptyString EmptyString)
              {| Endpoint := kuzzle; Token := "abc123" |} [])
    as [Hendpoint Hcases].
  - vm_compute; reflexivity.
  - split; [exact Hendpoint |].
    destruct Hcases as [(_ & _ & _ & Hcheck) | [(Hpair & _) | (_ & Hdiags & _)]].
    + exact Hcheck.
    + vm_compute in Hpair. discriminate.
    + discriminate.
Defined.

(** ** The repository's test tables, replayed on the model *)

(** [Test_checkConnection]: Success, Not reachable, Bad Gateway, Not
    authorized. *)
Example test_checkConnection :
  map (fun mocks => wantErr (outcome (@checkConnection (mockWorld mocks) kuzzle)))
      [[reachable]; []; [badGateway];
       [{| method := "GET"; url := kuzzle; statusCode := 403;
           response := Json.dq "{'result': 'Not Authorized'}" |}]]
  = [Some false; Some true; Some true; Some false].
Proof. vm_compute. reflexivity. Qed.

(** [Test_checkToken]: Success, Invalid token, Not authorized, Bad response
    format error, Connection error. *)
Example test_checkToken :
  map (fun mocks =>
         wantErr (outcome (@checkToken (mockWorld mocks) kuzzle EmptyString)))
      [[tokenValid]; [tokenInvalid]; [tokenNotAuthorized];
       [{| method := "POST"; url := kuzzle ++ "/_checkToken"; statusCode := 200;
           response := notJSON |}];
       []]
  = [Some false; Some true; Some false; Some true; Some true].
Proof. vm_compute. reflexivity. Qed.

(** [Test_tryAuthenticate]: Success, Bad credentials, Bad response format
    error, Connection error. *)
Example test_tryAuthenticate :
  map (fun mocks =>
         match outcome (@tryAuthenticate (mockWorld mocks) kuzzle
                                         EmptyString EmptyString) with
         | Ret (jwt, err) => Some (jwt, wantErr (Ret err))
         | Panic _ => None
         end)
      [[loginOK]; [loginUnauthorized];
       [{| method := "POST"; url := kuzzle ++ "/_login/local"; statusCode := 200;
           response := notJSON |}];
       []]
  = [Some ("mySuperAuthenticationToken", Some false);
     Some (EmptyString, Some true);
     Some (EmptyString, Some true);
     Some (EmptyString, Some true)].
Proof. vm_compute. reflexivity. Qed.
